(** * Verification of [src/open_meteo_api.py]

    A shallow embedding of the class [OpenMeteoHistoricalAPI]: the two
    variable catalogs, the constructor, [_build_params], [fetch] and
    [to_dataframe], followed by the properties the specification states
    about them.

    Conventions of the embedding:
    - a Python [set] of strings is a [gset string], a [dict] keyed by strings
      whose insertion order is not observed is a [gmap string _];
    - a decoded JSON document is a value of [json]; a JSON object keeps its
      fields in document order (an association list), since [pd.DataFrame]
      lays the columns out in that order;
    - Python's [float] is the kernel's binary64 [float]; the code never
      computes with them, it only passes them on;
    - a call that may raise returns a [result]; [x ← c; k] sequences two such
      calls and stops at the first exception;
    - [requests] and [pandas] are libraries outside the repository: the
      network is a parameter of [fetch], the pandas calls are the operations
      of the class [Pandas], and [PandasModel] gives one concrete instance. *)

From Stdlib Require Import PrimFloat ZArith String Ascii.
From stdpp Require Import gmap strings list fin_maps.

Local Open Scope string_scope.
Set Warnings "-inexact-float,-clear-no-such-hyp".

(** ** Python values and exceptions *)

(** The values [_build_params] stores in the query dictionary. *)
Inductive pyval :=
  | PyFloat (x : float)
  | PyStr (s : string).

(** A decoded JSON document ([response.json()]); [JNull] is Python's [None]. *)
#[warnings="-register-all"]
Inductive json :=
  | JNull
  | JBool (b : bool)
  | JInt (z : Z)
  | JFloat (x : float)
  | JStr (s : string)
  | JArr (items : list json)
  | JObj (fields : list (string * json)).

(** Exceptions raised inside a pandas call, by Python class: [PdKeyError]
    is a [KeyError], [PdValueError] a [ValueError].  [PdUnmodelled] marks
    input outside the fragment a model of pandas covers: what pandas does
    there (a table with coerced cells, or an exception of some class) is
    left open. *)
Inductive pandas_exn :=
  | PdKeyError (key : string)
  | PdValueError (msg : string)
  | PdUnmodelled.

(** Exceptions that can leave a method of the class.  [ValueError],
    [KeyError] and [TypeError] are the ones raised by the statements of
    [open_meteo_api.py] themselves (a [raise], a dictionary subscript, an
    [in] test); what a pandas call raises is kept under [PandasError],
    which records where the exception comes from.  Python does not: a
    [PandasError (PdValueError msg)] is a [ValueError] like that of a
    [raise] of the module, and differs from it by its message only.  So a
    property of the module's own exceptions names the message (or the
    key), and nothing is concluded about "any [ValueError]" from the
    constructor alone. *)
Inductive exn :=
  | ValueError (msg : string)
  | KeyError (key : string)
  | TypeError
  | PandasError (e : pandas_exn).

Inductive result (A : Type) :=
  | Ok (a : A)
  | Raise (e : exn).
Arguments Ok {A} a.
Arguments Raise {A} e.

#[global] Instance result_ret : MRet result := λ A a, Ok a.
#[global] Instance result_bind : MBind result := λ A B f c,
  match c with
  | Ok a => f a
  | Raise e => Raise e
  end.

(** Lifts the outcome of a pandas call into [result]. *)
Definition in_pandas {A} (c : pandas_exn + A) : result A :=
  match c with
  | inl e => Raise (PandasError e)
  | inr a => Ok a
  end.

(** Truth value of a list ([if xs:]) and of a string ([if s:]): empty is
    false.  [None] is false as well, which the callers spell out. *)
Definition truthy_list {A} (xs : list A) : bool :=
  match xs with
  | [] => false
  | _ :: _ => true
  end.

Definition truthy_str (s : string) : bool :=
  match s with
  | EmptyString => false
  | String _ _ => true
  end.

(** [sep.join(xs)]. *)
Fixpoint str_join (sep : string) (xs : list string) : string :=
  match xs with
  | [] => ""
  | [x] => x
  | x :: (_ :: _) as rest => x +:+ sep +:+ str_join sep rest
  end.

(** [s.split(c)] for a one-character separator: how the receiving side reads
    a comma-separated query value back into its items. *)
Fixpoint str_split (c : ascii) (s : string) : list string :=
  match s with
  | EmptyString => [""]
  | String a s' =>
      if Ascii.eqb a c then "" :: str_split c s'
      else match str_split c s' with
           | [] => [String a ""]
           | w :: ws => String a w :: ws
           end
  end.

(** [c not in s]: the string holds no separator. *)
Fixpoint free_of (c : ascii) (s : string) : bool :=
  match s with
  | EmptyString => true
  | String a s' => negb (Ascii.eqb a c) && free_of c s'
  end.

(** Number of occurrences of [v] in [xs] ([xs.count(v)]). *)
Definition count (v : string) (xs : list string) : nat :=
  length (filter (λ x, x = v) xs).

(** ** The class [OpenMeteoHistoricalAPI] *)

Definition BASE_URL : string := "https://archive-api.open-meteo.com/v1/archive".

(** The two catalogs.  Each set is stored evaluated, so that membership
    tests on it compute directly. *)
Definition HOURLY_VARIABLES : gset string := Eval vm_compute in list_to_set [
  "temperature_2m"; "relative_humidity_2m"; "dew_point_2m"; "apparent_temperature";
  "pressure_msl"; "surface_pressure"; "precipitation"; "rain"; "snowfall";
  "cloud_cover"; "cloud_cover_low"; "cloud_cover_mid"; "cloud_cover_high";
  "shortwave_radiation"; "direct_radiation"; "direct_normal_irradiance";
  "diffuse_radiation"; "global_tilted_irradiance"; "sunshine_duration";
  "wind_speed_10m"; "wind_speed_100m"; "wind_direction_10m"; "wind_direction_100m";
  "wind_gusts_10m"; "et0_fao_evapotranspiration"; "weather_code"; "snow_depth";
  "vapour_pressure_deficit"; "soil_temperature_0_to_7cm"; "soil_temperature_7_to_28cm";
  "soil_temperature_28_to_100cm"; "soil_temperature_100_to_255cm";
  "soil_moisture_0_to_7cm"; "soil_moisture_7_to_28cm";
  "soil_moisture_28_to_100cm"; "soil_moisture_100_to_255cm"
].

Definition DAILY_VARIABLES : gset string := Eval vm_compute in list_to_set [
  "weather_code"; "temperature_2m_max"; "temperature_2m_min";
  "apparent_temperature_max"; "apparent_temperature_min";
  "precipitation_sum"; "rain_sum"; "snowfall_sum"; "precipitation_hours";
  "sunrise"; "sunset"; "sunshine_duration"; "daylight_duration";
  "wind_speed_10m_max"; "wind_gusts_10m_max"; "wind_direction_10m_dominant";
  "shortwave_radiation_sum"; "et0_fao_evapotranspiration"
].

(** The attributes [__init__] sets on [self]. *)
Record OpenMeteoHistoricalAPI := {
  latitude : float;
  longitude : float;
  variables : list string;
  start_date : string;
  end_date : string;
  timezone : string;
  temperature_unit : string;
  wind_speed_unit : string;
  precipitation_unit : string;
  timeformat : string;
  model : option string;
  elevation : option float;
  cell_selection : string;
  hourly_vars : list string;
  daily_vars : list string
}.

(** Default values of the optional constructor arguments. *)
Definition default_timezone : string := "auto".
Definition default_temperature_unit : string := "celsius".
Definition default_wind_speed_unit : string := "kmh".
Definition default_precipitation_unit : string := "mm".
Definition default_timeformat : string := "iso8601".
Definition default_model : option string := None.
Definition default_elevation : option float := None.
Definition default_cell_selection : string := "land".

Definition no_valid_variables : string :=
  "No valid variables found in hourly or daily categories.".

Definition __init__
    (latitude longitude : float) (variables : list string)
    (start_date end_date : string)
    (timezone temperature_unit wind_speed_unit precipitation_unit timeformat : string)
    (model : option string) (elevation : option float) (cell_selection : string)
    : result OpenMeteoHistoricalAPI :=
  let hourly_vars := filter (λ v, v ∈ HOURLY_VARIABLES) variables in
  let daily_vars := filter (λ v, v ∈ DAILY_VARIABLES) variables in
  if negb (truthy_list hourly_vars) && negb (truthy_list daily_vars) then
    Raise (ValueError no_valid_variables)
  else
    Ok {| latitude := latitude; longitude := longitude; variables := variables;
          start_date := start_date; end_date := end_date; timezone := timezone;
          temperature_unit := temperature_unit; wind_speed_unit := wind_speed_unit;
          precipitation_unit := precipitation_unit; timeformat := timeformat;
          model := model; elevation := elevation; cell_selection := cell_selection;
          hourly_vars := hourly_vars; daily_vars := daily_vars |}.

(** The constructor called with the required arguments only. *)
Definition init_with_defaults
    (latitude longitude : float) (variables : list string)
    (start_date end_date : string) : result OpenMeteoHistoricalAPI :=
  __init__ latitude longitude variables start_date end_date
    default_timezone default_temperature_unit default_wind_speed_unit
    default_precipitation_unit default_timeformat default_model
    default_elevation default_cell_selection.

Definition _build_params (self : OpenMeteoHistoricalAPI) : gmap string pyval :=
  let params : gmap string pyval :=
    <["latitude" := PyFloat self.(latitude)]>
    (<["longitude" := PyFloat self.(longitude)]>
    (<["start_date" := PyStr self.(start_date)]>
    (<["end_date" := PyStr self.(end_date)]>
    (<["timezone" := PyStr self.(timezone)]>
    (<["temperature_unit" := PyStr self.(temperature_unit)]>
    (<["wind_speed_unit" := PyStr self.(wind_speed_unit)]>
    (<["precipitation_unit" := PyStr self.(precipitation_unit)]>
    (<["timeformat" := PyStr self.(timeformat)]>
    (<["cell_selection" := PyStr self.(cell_selection)]> ∅))))))))) in
  let params :=
    if truthy_list self.(hourly_vars)
    then <["hourly" := PyStr (str_join "," self.(hourly_vars))]> params
    else params in
  let params :=
    if truthy_list self.(daily_vars)
    then <["daily" := PyStr (str_join "," self.(daily_vars))]> params
    else params in
  let params :=
    match self.(model) with
    | Some m => if truthy_str m then <["model" := PyStr m]> params else params
    | None => params
    end in
  let params :=
    match self.(elevation) with
    | Some e => <["elevation" := PyFloat e]> params
    | None => params
    end in
  params.

(** The ten keys of the dictionary literal that opens [_build_params]. *)
Definition base_keys : gset string := list_to_set [
  "latitude"; "longitude"; "start_date"; "end_date"; "timezone";
  "temperature_unit"; "wind_speed_unit"; "precipitation_unit";
  "timeformat"; "cell_selection"
].

(** ** Operations on decoded JSON *)

(** [d[key]] on a dictionary held in document order; [None] when the key is
    absent.  The keys of a decoded object are pairwise distinct. *)
Fixpoint dict_get (key : string) (fields : list (string * json)) : option json :=
  match fields with
  | [] => None
  | (k, v) :: rest => if String.eqb k key then Some v else dict_get key rest
  end.

(** [key in s] for two strings: [key] occurs in [s]. *)
Definition is_substring (key s : string) : bool :=
  match index 0 key s with
  | Some _ => true
  | None => false
  end.

(** [x == key] for a decoded value [x] and a string [key]. *)
Definition eq_str (key : string) (x : json) : bool :=
  match x with
  | JStr s => String.eqb s key
  | _ => false
  end.

(** [key in data]: membership among the keys of an object, among the items
    of an array, substring of a string; a number, a Boolean and [None] are
    not containers. *)
Definition py_in (key : string) (data : json) : result bool :=
  match data with
  | JObj fields => Ok (bool_decide (is_Some (dict_get key fields)))
  | JArr items => Ok (existsb (eq_str key) items)
  | JStr s => Ok (is_substring key s)
  | JNull | JBool _ | JInt _ | JFloat _ => Raise TypeError
  end.

(** [data[key]] with a string subscript: only an object accepts it. *)
Definition py_getitem (data : json) (key : string) : result json :=
  match data with
  | JObj fields =>
      match dict_get key fields with
      | Some v => Ok v
      | None => Raise (KeyError key)
      end
  | _ => Raise TypeError
  end.

(** [x is None]. *)
Definition is_None (x : json) : bool :=
  match x with
  | JNull => true
  | _ => false
  end.

(** ** The network *)

(** What lines 94-96 yield as a whole ([requests.get], [raise_for_status],
    [response.json()]): a [RequestException] (transport failure or
    non-success status), or the decoded body. *)
Inductive reply :=
  | RequestException (msg : string)
  | Decoded (body : json).

(** ** The pandas calls of [to_dataframe] *)

Class Pandas := {
  DataFrame : Type;
  Series : Type;
  (** [pd.DataFrame(obj)] *)
  pd_DataFrame : json → pandas_exn + DataFrame;
  (** [df[col]] *)
  df_getitem : DataFrame → string → pandas_exn + Series;
  (** [pd.to_datetime(series)] *)
  pd_to_datetime : Series → pandas_exn + Series;
  (** [df[col] = series]; the frame after the assignment *)
  df_setitem : DataFrame → string → Series → pandas_exn + DataFrame;
  (** [df.set_index(col, inplace=True)]; the frame after the call *)
  df_set_index : DataFrame → string → pandas_exn + DataFrame
}.

(** ** [fetch] and [to_dataframe] *)

Section Methods.

(** The network: what a GET of a URL with a query dictionary yields. *)
Variable requests_get : string → gmap string pyval → reply.

(** [fetch]: the decoded body, or [None] after the exception was caught
    (the message it prints is not modelled). *)
Definition fetch (self : OpenMeteoHistoricalAPI) : json :=
  let params := _build_params self in
  match requests_get BASE_URL params with
  | Decoded body => body
  | RequestException _ => JNull
  end.

Context `{Pandas}.

(** What [to_dataframe] returns: one frame, or the dictionary [dfs]. *)
Inductive frames :=
  | Single (df : DataFrame)
  | Mapping (dfs : gmap string DataFrame).

Definition no_data_fetched : string := "No data fetched from API.".
Definition no_section_found : string :=
  "No 'hourly' or 'daily' data found in API response.".

(** The two errors by which [to_dataframe] reports that there is no data:
    the [ValueError]s of lines 105 and 122, known by their messages. *)
Definition DataUnavailableError (e : exn) : Prop :=
  e = ValueError no_data_fetched ∨ e = ValueError no_section_found.

(** Lines 110-112, and again 116-118 with [daily_df] for [hourly_df]: the
    frame of one section, indexed by its parsed ["time"] column. *)
Definition time_indexed (section : json) : result DataFrame :=
  df ← in_pandas (pd_DataFrame section);
  time ← in_pandas (df_getitem df "time");
  time ← in_pandas (pd_to_datetime time);
  df ← in_pandas (df_setitem df "time" time);
  in_pandas (df_set_index df "time").

(** [dfs[key]]. *)
Definition dfs_getitem (dfs : gmap string DataFrame) (key : string)
    : result DataFrame :=
  match dfs !! key with
  | Some df => Ok df
  | None => Raise (KeyError key)
  end.

(** Lines 109-113, and again 115-119 with "daily" for "hourly": when the
    payload has the key, the frame of that section is stored in [dfs]
    under the key. *)
Definition with_section (key : string) (data : json)
    (dfs : gmap string DataFrame) : result (gmap string DataFrame) :=
  present ← py_in key data;
  if present : bool then
    section ← py_getitem data key;
    df ← time_indexed section;
    mret (<[key := df]> dfs)
  else mret dfs.

(** The table [to_dataframe] builds for [key], when it builds one. *)
Definition table_for (key : string) (data : json) (df : DataFrame) : Prop :=
  py_in key data = Ok true ∧
  ∃ section, py_getitem data key = Ok section ∧ time_indexed section = Ok df.

(** The section under [key] is there and its conversion raises [pe]
    inside pandas. *)
Definition section_fails (key : string) (data : json) (pe : pandas_exn) : Prop :=
  py_in key data = Ok true ∧
  ∃ section, py_getitem data key = Ok section ∧
             time_indexed section = Raise (PandasError pe).

Definition to_dataframe (self : OpenMeteoHistoricalAPI) : result frames :=
  let data := fetch self in
  if is_None data then Raise (ValueError no_data_fetched)
  else
    let dfs : gmap string DataFrame := ∅ in
    dfs ← with_section "hourly" data dfs;
    dfs ← with_section "daily" data dfs;
    if Nat.eqb (size dfs) 0 then Raise (ValueError no_section_found)
    else if Nat.eqb (size dfs) 1 then
      df ← dfs_getitem dfs "hourly"; mret (Single df)
    else mret (Mapping dfs).

End Methods.

(** ** A model of the pandas calls

    An instance of [Pandas] for the payloads the archive API documents: a
    section is an object whose fields are arrays of equal length, each array
    holding only strings, only integers or only floats, and the ["time"]
    array holding ISO 8601 strings, all dates ([YYYY-MM-DD]) or all
    date-times to the minute ([YYYY-MM-DDTHH:MM]).  On such input the
    operations follow the pandas documentation; on anything else they
    answer [PdUnmodelled] except where the exception pandas raises is
    plain (a missing column, arrays of unequal length). *)
Module PandasModel.

Record Timestamp := {
  year : nat; month : nat; day : nat; hour : nat; minute : nat
}.

(** A cell of a frame. *)
Inductive scalar :=
  | SInt (z : Z)
  | SFloat (x : float)
  | SStr (s : string)
  | STime (t : Timestamp).

(** A frame: the row labels, the name of the index, and the columns in
    order, each as long as the index. *)
Record frame := {
  index_name : option string;
  index : list scalar;
  columns : list (string * list scalar)
}.

Definition decode_cell (j : json) : option scalar :=
  match j with
  | JInt z => Some (SInt z)
  | JFloat x => Some (SFloat x)
  | JStr s => Some (SStr s)
  | _ => None
  end.

Definition same_kind (a b : scalar) : bool :=
  match a, b with
  | SInt _, SInt _ | SFloat _, SFloat _ | SStr _, SStr _ | STime _, STime _ => true
  | _, _ => false
  end.

Definition homogeneous (cells : list scalar) : bool :=
  match cells with
  | [] => true
  | c :: rest => forallb (same_kind c) rest
  end.

Definition decode_column (j : json) : option (list scalar) :=
  match j with
  | JArr items =>
      cells ← mapM decode_cell items;
      if homogeneous cells then Some cells else None
  | _ => None
  end.

Definition decode_columns (fields : list (string * json))
    : option (list (string * list scalar)) :=
  mapM (λ kv, cells ← decode_column kv.2; Some (kv.1, cells)) fields.

(** [RangeIndex(n)]: the labels 0, ..., n-1. *)
Definition range_index (n : nat) : list scalar :=
  (λ i, SInt (Z.of_nat i)) <$> seq 0 n.

Definition model_DataFrame (obj : json) : pandas_exn + frame :=
  match obj with
  | JObj fields =>
      match decode_columns fields with
      | Some [] => inr {| index_name := None; index := []; columns := [] |}
      | Some ((k, cells) :: rest) =>
          if forallb (λ kc, Nat.eqb (length kc.2) (length cells)) rest
          then inr {| index_name := None;
                      index := range_index (length cells);
                      columns := (k, cells) :: rest |}
          else inl (PdValueError "All arrays must be of the same length")
      | None => inl PdUnmodelled
      end
  | _ => inl PdUnmodelled
  end.

Fixpoint column_get (col : string) (cols : list (string * list scalar))
    : option (list scalar) :=
  match cols with
  | [] => None
  | (k, cells) :: rest => if String.eqb k col then Some cells else column_get col rest
  end.

Definition model_getitem (df : frame) (col : string) : pandas_exn + list scalar :=
  match column_get col df.(columns) with
  | Some cells => inr cells
  | None => inl (PdKeyError col)
  end.

(** *** ISO 8601 timestamps *)

Definition digit (c : ascii) : option nat :=
  let n := nat_of_ascii c in
  if ((48 <=? n) && (n <=? 57))%nat then Some (n - 48) else None.

Definition number (cs : list ascii) : option nat :=
  foldl (λ acc c, n ← acc; d ← digit c; Some (10 * n + d)) (Some 0) cs.

Definition is_leap (y : nat) : bool :=
  (((y mod 4 =? 0) && negb (y mod 100 =? 0)) || (y mod 400 =? 0))%nat.

Definition days_in_month (y m : nat) : nat :=
  match m with
  | 1 | 3 | 5 | 7 | 8 | 10 | 12 => 31
  | 4 | 6 | 9 | 11 => 30
  | 2 => if is_leap y then 29 else 28
  | _ => 0
  end.

Definition make_timestamp (y m d hh mm : nat) : option Timestamp :=
  if ((1 <=? d) && (d <=? days_in_month y m) && (hh <? 24) && (mm <? 60))%nat
  then Some {| year := y; month := m; day := d; hour := hh; minute := mm |}
  else None.

(** The time of day after the date: nothing (midnight, [false]: a date),
    or [THH:MM] ([true]: a date-time). *)
Definition parse_clock (s : string) : option (bool * nat * nat) :=
  match s with
  | EmptyString => Some (false, 0, 0)
  | String "T" (String h1 (String h2 (String ":" (String m1 (String m2 EmptyString))))) =>
      hh ← number [h1; h2];
      mm ← number [m1; m2];
      Some (true, hh, mm)
  | _ => None
  end.

(** A parsed ISO 8601 string, with whether it carried a time of day. *)
Definition parse_iso8601 (s : string) : option (bool * Timestamp) :=
  match s with
  | String y1 (String y2 (String y3 (String y4 (String "-"
      (String m1 (String m2 (String "-" (String d1 (String d2 clock))))))))) =>
      y ← number [y1; y2; y3; y4];
      m ← number [m1; m2];
      d ← number [d1; d2];
      '(timed, hh, mm) ← parse_clock clock;
      t ← make_timestamp y m d hh mm;
      Some (timed, t)
  | _ => None
  end.

Definition parse_cell (c : scalar) : option (bool * Timestamp) :=
  match c with
  | SStr s => parse_iso8601 s
  | _ => None
  end.

Definition same_format (parsed : list (bool * Timestamp)) : bool :=
  match parsed with
  | [] => true
  | p :: rest => forallb (λ q, Bool.eqb q.1 p.1) rest
  end.

Definition model_to_datetime (cells : list scalar) : pandas_exn + list scalar :=
  match mapM parse_cell cells with
  | Some parsed =>
      if same_format parsed then inr ((λ p, STime p.2) <$> parsed)
      else inl PdUnmodelled
  | None => inl PdUnmodelled
  end.

(** *** Column assignment and [set_index] *)

Fixpoint column_set (col : string) (cells : list scalar)
    (cols : list (string * list scalar)) : list (string * list scalar) :=
  match cols with
  | [] => [(col, cells)]
  | (k, old) :: rest =>
      if String.eqb k col then (k, cells) :: rest
      else (k, old) :: column_set col cells rest
  end.

Definition model_setitem (df : frame) (col : string) (cells : list scalar)
    : pandas_exn + frame :=
  if Nat.eqb (length cells) (length df.(index))
  then inr {| index_name := df.(index_name); index := df.(index);
              columns := column_set col cells df.(columns) |}
  else inl (PdValueError "Length of values does not match length of index").

Definition column_drop (col : string) (cols : list (string * list scalar))
    : list (string * list scalar) :=
  filter (λ kc, kc.1 ≠ col) cols.

Definition model_set_index (df : frame) (col : string) : pandas_exn + frame :=
  match column_get col df.(columns) with
  | Some cells =>
      inr {| index_name := Some col; index := cells;
             columns := column_drop col df.(columns) |}
  | None => inl (PdKeyError col)
  end.

#[export] Instance pandas_model : Pandas := {|
  DataFrame := frame;
  Series := list scalar;
  pd_DataFrame := model_DataFrame;
  df_getitem := model_getitem;
  pd_to_datetime := model_to_datetime;
  df_setitem := model_setitem;
  df_set_index := model_set_index
|}.

End PandasModel.

(** ** Sample responses *)

(** A response with an "hourly" section only. *)
Definition hourly_only : json :=
  JObj [("hourly", JObj [
    ("time", JArr [JStr "2020-01-01T00:00"; JStr "2020-01-01T01:00"]);
    ("temperature_2m", JArr [JFloat 1.0; JFloat 2.0])])].

(** A response with a "daily" section only. *)
Definition daily_only : json :=
  JObj [("daily", JObj [
    ("time", JArr [JStr "2020-01-01"; JStr "2020-01-02"]);
    ("sunrise", JArr [JStr "2020-01-01T08:16"; JStr "2020-01-02T08:16"])])].

(** A response as the archive sends it for hourly and daily variables. *)
Definition hourly_and_daily : json :=
  JObj [("latitude", JFloat 52.5); ("longitude", JFloat 13.5);
        ("timezone", JStr "GMT");
        ("hourly", JObj [
          ("time", JArr [JStr "2020-01-01T00:00"; JStr "2020-01-01T01:00"]);
          ("temperature_2m", JArr [JFloat 1.0; JFloat 2.0])]);
        ("daily", JObj [
          ("time", JArr [JStr "2020-01-01"]);
          ("temperature_2m_max", JArr [JFloat 3.5])])].

(** The tables the pandas model builds from the sample responses. *)
Definition midnight (d : nat) : PandasModel.Timestamp :=
  {| PandasModel.year := 2020; PandasModel.month := 1; PandasModel.day := d;
     PandasModel.hour := 0; PandasModel.minute := 0 |}.

Definition one_o_clock (d : nat) : PandasModel.Timestamp :=
  {| PandasModel.year := 2020; PandasModel.month := 1; PandasModel.day := d;
     PandasModel.hour := 1; PandasModel.minute := 0 |}.

(** The "hourly" section of [hourly_only] and of [hourly_and_daily]. *)
Definition hourly_table : PandasModel.frame := {|
  PandasModel.index_name := Some "time";
  PandasModel.index :=
    [PandasModel.STime (midnight 1); PandasModel.STime (one_o_clock 1)];
  PandasModel.columns :=
    [("temperature_2m", [PandasModel.SFloat 1.0; PandasModel.SFloat 2.0])]
|}.

(** The "daily" section of [daily_only]. *)
Definition sunrise_table : PandasModel.frame := {|
  PandasModel.index_name := Some "time";
  PandasModel.index :=
    [PandasModel.STime (midnight 1); PandasModel.STime (midnight 2)];
  PandasModel.columns :=
    [("sunrise", [PandasModel.SStr "2020-01-01T08:16";
                  PandasModel.SStr "2020-01-02T08:16"])]
|}.

(** The "daily" section of [hourly_and_daily]. *)
Definition daily_table : PandasModel.frame := {|
  PandasModel.index_name := Some "time";
  PandasModel.index := [PandasModel.STime (midnight 1)];
  PandasModel.columns := [("temperature_2m_max", [PandasModel.SFloat 3.5])]
|}.

(** A network that answers every request with [body]. *)
Definition always (body : json) : string → gmap string pyval → reply :=
  λ _ _, Decoded body.

(** The request of the specification's scenario, as [__init__] builds it. *)
Definition sample_request : OpenMeteoHistoricalAPI := {|
  latitude := 52.52; longitude := 13.41;
  variables := ["temperature_2m"; "sunrise"];
  start_date := "2023-01-01"; end_date := "2023-01-02";
  timezone := default_timezone;
  temperature_unit := default_temperature_unit;
  wind_speed_unit := default_wind_speed_unit;
  precipitation_unit := default_precipitation_unit;
  timeformat := default_timeformat;
  model := default_model; elevation := default_elevation;
  cell_selection := default_cell_selection;
  hourly_vars := ["temperature_2m"]; daily_vars := ["sunrise"]
|}.

(** * Properties *)

(** ** Auxiliary facts on lists and strings *)

Lemma truthy_list_true {A} (xs : list A) : truthy_list xs = true ↔ xs ≠ [].
Proof. destruct xs; simpl; split; congruence. Qed.

Lemma truthy_str_true (s : string) : truthy_str s = true ↔ s ≠ "".
Proof. destruct s; simpl; split; congruence. Qed.

Lemma count_filter (P : string → Prop) `{!∀ x, Decision (P x)} v xs :
  P v → count v (filter P xs) = count v xs.
Proof.
  intros Pv. unfold count. induction xs as [|x xs IH]; [done|].
  rewrite (filter_cons P). destruct (decide (P x)) as [Px|nPx].
  - rewrite !(filter_cons (λ y, y = v)). destruct (decide (x = v)); simpl; auto.
  - rewrite (filter_cons_False (λ y, y = v) x xs); [done|].
    intros ->. contradiction.
Qed.

Lemma filter_none {A} (P : A → Prop) `{!∀ x, Decision (P x)} (xs : list A) :
  (∀ x, x ∈ xs → ¬ P x) → filter P xs = [].
Proof.
  induction xs as [|x xs IH]; [done|]. intros Hnone.
  rewrite filter_cons_False by (apply Hnone; left).
  apply IH. intros y Hy. apply Hnone. by right.
Qed.

Lemma str_split_free c s : free_of c s = true → str_split c s = [s].
Proof.
  induction s as [|a s IH]; simpl; [done|].
  destruct (Ascii.eqb a c); simpl; [done|].
  intros Hs. by rewrite (IH Hs).
Qed.

Lemma str_split_app c x s :
  free_of c x = true →
  str_split c (x +:+ String c s) = x :: str_split c s.
Proof.
  induction x as [|a x IH]; simpl.
  - by rewrite Ascii.eqb_refl.
  - destruct (Ascii.eqb a c); simpl; [done|].
    intros Hx. by rewrite (IH Hx).
Qed.

(** Splitting a joined list gives the list back, when no item holds the
    separator and there is at least one item. *)
Lemma str_split_join c xs :
  xs ≠ [] → Forall (λ x, free_of c x = true) xs →
  str_split c (str_join (String c "") xs) = xs.
Proof.
  induction xs as [|x xs IH]; [done|].
  intros _ Hfree. apply Forall_cons in Hfree as [Hx Hxs].
  destruct xs as [|y ys].
  - simpl. by apply str_split_free.
  - change (str_join (String c "") (x :: y :: ys))
      with (x +:+ String c (str_join (String c "") (y :: ys))).
    rewrite str_split_app by done. f_equal. by apply IH.
Qed.

Lemma forallb_elem_of {A} (f : A → bool) (xs : list A) x :
  forallb f xs = true → x ∈ xs → f x = true.
Proof.
  intros Hall Hin. rewrite forallb_forall in Hall.
  apply Hall. by apply list_elem_of_In.
Qed.

(** ** The catalogs *)

Lemma hourly_comma_free v : v ∈ HOURLY_VARIABLES → free_of "," v = true.
Proof.
  rewrite <- elem_of_elements. apply forallb_elem_of. vm_compute. reflexivity.
Qed.

Lemma daily_comma_free v : v ∈ DAILY_VARIABLES → free_of "," v = true.
Proof.
  rewrite <- elem_of_elements. apply forallb_elem_of. vm_compute. reflexivity.
Qed.

Lemma catalogs_overlap :
  HOURLY_VARIABLES ∩ DAILY_VARIABLES =
  {[ "weather_code"; "sunshine_duration"; "et0_fao_evapotranspiration" ]}.
Proof. apply (bool_decide_unpack _). vm_compute. exact I. Qed.

(** C6, as the code has it: the hourly catalog holds 36 names, the daily
    catalog 18. *)
Theorem catalog_sizes :
  size HOURLY_VARIABLES = 36 ∧ size DAILY_VARIABLES = 18.
Proof. vm_compute. split; reflexivity. Qed.

(** C6, as stated, fails: the hourly catalog does not hold 35 names. *)
Lemma hourly_catalog_not_35 : size HOURLY_VARIABLES ≠ 35.
Proof. vm_compute. discriminate. Qed.


(** ** The constructor *)

Section Constructor.

Variables (lat lon : float) (V : list string) (sd ed : string).
Variables (tz tu wu pu tf : string).
Variables (mdl : option string) (elev : option float) (cs : string).

Local Abbreviation init := (__init__ lat lon V sd ed tz tu wu pu tf mdl elev cs).

(** What a successful construction stored in [self]. *)
Lemma init_ok_inv self :
  init = Ok self →
  self.(variables) = V ∧
  self.(hourly_vars) = filter (λ v, v ∈ HOURLY_VARIABLES) V ∧
  self.(daily_vars) = filter (λ v, v ∈ DAILY_VARIABLES) V ∧
  self.(model) = mdl ∧ self.(elevation) = elev ∧
  (self.(hourly_vars) ≠ [] ∨ self.(daily_vars) ≠ []).
Proof.
  unfold __init__.
  destruct (truthy_list (filter (λ v, v ∈ HOURLY_VARIABLES) V)) eqn:Eh;
    destruct (truthy_list (filter (λ v, v ∈ DAILY_VARIABLES) V)) eqn:Ed;
    simpl; intros [= <-]; simpl; repeat split; try done;
    rewrite ?truthy_list_true in *; auto.
Qed.

Lemma init_raises_iff_empty :
  init = Raise (ValueError no_valid_variables) ↔
  filter (λ v, v ∈ HOURLY_VARIABLES) V = [] ∧
  filter (λ v, v ∈ DAILY_VARIABLES) V = [].
Proof.
  unfold __init__.
  destruct (filter (λ v, v ∈ HOURLY_VARIABLES) V);
    destruct (filter (λ v, v ∈ DAILY_VARIABLES) V); simpl;
    split; try done; intros [? ?]; done.
Qed.

Lemma init_raises_only_value_error e :
  init = Raise e → e = ValueError no_valid_variables.
Proof.
  unfold __init__.
  destruct (negb _ && negb _); [by intros [= <-] | done].
Qed.

(** C3: construction partitions the variable list [V]: [hourly_vars] and
    [daily_vars] each keep the relative order of [V] (they are sublists of
    it), [hourly_vars] holds exactly the elements of [V] that are in the
    hourly catalog, [daily_vars] exactly those in the daily catalog, and a
    variable in neither catalog is in neither list. *)
Theorem init_partitions_variables self :
  init = Ok self →
  (self.(hourly_vars) `sublist_of` V) ∧
  (self.(daily_vars) `sublist_of` V) ∧
  (∀ v, v ∈ self.(hourly_vars) ↔ v ∈ V ∧ v ∈ HOURLY_VARIABLES) ∧
  (∀ v, v ∈ self.(daily_vars) ↔ v ∈ V ∧ v ∈ DAILY_VARIABLES) ∧
  (∀ v, v ∉ HOURLY_VARIABLES → v ∉ DAILY_VARIABLES →
        (v ∉ self.(hourly_vars)) ∧ (v ∉ self.(daily_vars))).
Proof.
  intros Hinit. apply init_ok_inv in Hinit as (_ & -> & -> & _).
  split_and!.
  - apply sublist_filter.
  - apply sublist_filter.
  - intros v. rewrite list_elem_of_filter. split; intros [? ?]; split; assumption.
  - intros v. rewrite list_elem_of_filter. split; intros [? ?]; split; assumption.
  - intros v Hh Hd. rewrite !list_elem_of_filter.
    split; intros [? ?]; contradiction.
Qed.

(** C4: construction raises the [ValueError] "No valid variables found in
    hourly or daily categories." exactly when both [hourly_vars] and
    [daily_vars] come out empty, and raises nothing else; a list whose
    entries are all unknown to both catalogs fails, and a list with at
    least one catalogued variable yields an object. *)
Theorem init_raises_iff_no_valid_variable :
  (init = Raise (ValueError no_valid_variables) ↔
     filter (λ v, v ∈ HOURLY_VARIABLES) V = [] ∧
     filter (λ v, v ∈ DAILY_VARIABLES) V = []) ∧
  (∀ e, init = Raise e → e = ValueError no_valid_variables) ∧
  ((∀ v, v ∈ V → (v ∉ HOURLY_VARIABLES) ∧ (v ∉ DAILY_VARIABLES)) →
     init = Raise (ValueError no_valid_variables)) ∧
  ((∃ v, v ∈ V ∧ (v ∈ HOURLY_VARIABLES ∨ v ∈ DAILY_VARIABLES)) →
     ∃ self, init = Ok self).
Proof.
  split_and!.
  - apply init_raises_iff_empty.
  - apply init_raises_only_value_error.
  - intros Hnone. apply init_raises_iff_empty.
    split; apply filter_none; intros v Hv; by destruct (Hnone v Hv).
  - intros (v & Hv & Hcat).
    destruct init as [self|e] eqn:Hinit; [by exists self|].
    apply init_raises_only_value_error in Hinit as Hval. subst e.
    apply init_raises_iff_empty in Hinit as [Hh Hd].
    destruct Hcat as [Hcat|Hcat].
    + by destruct (filter_nil_not_elem_of _ _ v Hh Hcat).
    + by destruct (filter_nil_not_elem_of _ _ v Hd Hcat).
Qed.

End Constructor.

(** ** [_build_params] *)

(** Case analysis on the four attributes [_build_params] branches on. *)
Ltac params_cases self :=
  destruct self as [? ? ? ? ? ? ? ? ? ? [[|? ?]|] [?|] ? [|? ?] [|? ?]];
  cbn [hourly_vars daily_vars model elevation].

(** The keys of the dictionary: each optional assignment adds its key to
    the ten of the literal. *)
Lemma build_params_dom self :
  dom (_build_params self) =
    (match self.(elevation) with
     | Some _ => {["elevation"]}
     | None => ∅
     end)
    ∪ ((match self.(model) with
        | Some m => if truthy_str m then {["model"]} else ∅
        | None => ∅
        end)
    ∪ ((if truthy_list self.(daily_vars) then {["daily"]} else ∅)
    ∪ ((if truthy_list self.(hourly_vars) then {["hourly"]} else ∅)
    ∪ base_keys))).
Proof.
  unfold _build_params. cbv zeta.
  match goal with
  | |- context [<["latitude" := ?a]> ?m] => set (base := <["latitude" := a]> m)
  end.
  assert (Hbase : dom base = base_keys).
  { subst base. rewrite !dom_insert_L, dom_empty_L. unfold base_keys. set_solver. }
  destruct self.(hourly_vars), self.(daily_vars), self.(model) as [[|]|],
    self.(elevation); simpl;
    rewrite ?dom_insert_L, ?(left_id_L (∅ : gset string) (∪)), Hbase; reflexivity.
Qed.

Lemma build_params_hourly self :
  _build_params self !! "hourly" =
    if truthy_list self.(hourly_vars)
    then Some (PyStr (str_join "," self.(hourly_vars))) else None.
Proof. params_cases self; vm_compute; reflexivity. Qed.

Lemma build_params_daily self :
  _build_params self !! "daily" =
    if truthy_list self.(daily_vars)
    then Some (PyStr (str_join "," self.(daily_vars))) else None.
Proof. params_cases self; vm_compute; reflexivity. Qed.

Lemma build_params_model self :
  _build_params self !! "model" =
    match self.(model) with
    | Some m => if truthy_str m then Some (PyStr m) else None
    | None => None
    end.
Proof. params_cases self; vm_compute; reflexivity. Qed.

Lemma build_params_elevation self :
  _build_params self !! "elevation" = PyFloat <$> self.(elevation).
Proof. params_cases self; vm_compute; reflexivity. Qed.

(** C2, as the code has it: [_build_params] always returns the ten base
    keys; it has the key "hourly" iff [hourly_vars] is non-empty, "daily"
    iff [daily_vars] is non-empty, "elevation" iff an elevation was given,
    and "model" iff a model was given and is not the empty string; it has
    no other key. *)
Theorem build_params_keys self :
  base_keys ⊆ dom (_build_params self) ∧
  ("hourly" ∈ dom (_build_params self) ↔ self.(hourly_vars) ≠ []) ∧
  ("daily" ∈ dom (_build_params self) ↔ self.(daily_vars) ≠ []) ∧
  ("model" ∈ dom (_build_params self) ↔ ∃ m, self.(model) = Some m ∧ m ≠ "") ∧
  ("elevation" ∈ dom (_build_params self) ↔ is_Some self.(elevation)) ∧
  dom (_build_params self) ⊆
    base_keys ∪ {[ "hourly"; "daily"; "model"; "elevation" ]}.
Proof.
  split_and!.
  - rewrite build_params_dom. generalize base_keys. set_solver.
  - rewrite elem_of_dom, build_params_hourly, <- truthy_list_true.
    destruct (truthy_list _); [by split | split; [by intros [? ?] | done]].
  - rewrite elem_of_dom, build_params_daily, <- truthy_list_true.
    destruct (truthy_list _); [by split | split; [by intros [? ?] | done]].
  - rewrite elem_of_dom, build_params_model.
    destruct self.(model) as [m|]; [|split; [by intros [? ?] | by intros (? & ? & ?)]].
    destruct (truthy_str m) eqn:Hm.
    + apply truthy_str_true in Hm. split; [by exists m | done].
    + split; [by intros [? ?]|]. intros (m' & [= <-] & Hne).
      apply truthy_str_true in Hne. congruence.
  - rewrite elem_of_dom, build_params_elevation.
    destruct self.(elevation); simpl; split; try done; by intros [? ?].
  - rewrite build_params_dom. generalize base_keys. intros B.
    destruct (truthy_list self.(hourly_vars)), (truthy_list self.(daily_vars)),
      self.(model) as [m|], self.(elevation); try destruct (truthy_str m);
      set_unfold; intros k; tauto.
Qed.

(** C2, as stated, fails: constructed with the empty string as model, the
    object has a model, and [_build_params] has no "model" key. *)
Lemma build_params_empty_model_no_key :
  ∃ self,
    __init__ 52.52 13.41 ["temperature_2m"] "2023-01-01" "2023-01-02"
      "auto" "celsius" "kmh" "mm" "iso8601" (Some "") None "land" = Ok self ∧
    is_Some self.(model) ∧
    "model" ∉ dom (_build_params self).
Proof.
  eexists. split; [by vm_compute|]. split; [by eexists|].
  rewrite build_params_dom. by vm_compute.
Qed.

(** ** What a constructed object sends *)

Section Request.

Variables (lat lon : float) (V : list string) (sd ed : string).
Variables (tz tu wu pu tf : string).
Variables (mdl : option string) (elev : option float) (cs : string).

Local Abbreviation init := (__init__ lat lon V sd ed tz tu wu pu tf mdl elev cs).

(** The "hourly" value of a constructed object that was asked for an hourly
    variable, and what the receiving side reads from it. *)
Lemma hourly_value self v :
  init = Ok self → v ∈ V → v ∈ HOURLY_VARIABLES →
  _build_params self !! "hourly" = Some (PyStr (str_join "," self.(hourly_vars))) ∧
  str_split "," (str_join "," self.(hourly_vars)) = self.(hourly_vars).
Proof.
  intros Hinit HV Hcat. apply init_ok_inv in Hinit as (_ & Hh & _).
  assert (Hin : v ∈ self.(hourly_vars)) by (rewrite Hh; by apply list_elem_of_filter).
  assert (Hne : self.(hourly_vars) ≠ []) by (intros E; rewrite E in Hin; by apply elem_of_nil in Hin).
  split.
  - rewrite build_params_hourly. apply truthy_list_true in Hne. by rewrite Hne.
  - apply (str_split_join "," _ Hne). rewrite Hh. apply Forall_forall.
    intros x Hx. apply list_elem_of_filter in Hx as [Hx _]. by apply hourly_comma_free.
Qed.

Lemma daily_value self v :
  init = Ok self → v ∈ V → v ∈ DAILY_VARIABLES →
  _build_params self !! "daily" = Some (PyStr (str_join "," self.(daily_vars))) ∧
  str_split "," (str_join "," self.(daily_vars)) = self.(daily_vars).
Proof.
  intros Hinit HV Hcat. apply init_ok_inv in Hinit as (_ & _ & Hd & _).
  assert (Hin : v ∈ self.(daily_vars)) by (rewrite Hd; by apply list_elem_of_filter).
  assert (Hne : self.(daily_vars) ≠ []) by (intros E; rewrite E in Hin; by apply elem_of_nil in Hin).
  split.
  - rewrite build_params_daily. apply truthy_list_true in Hne. by rewrite Hne.
  - apply (str_split_join "," _ Hne). rewrite Hd. apply Forall_forall.
    intros x Hx. apply list_elem_of_filter in Hx as [Hx _]. by apply daily_comma_free.
Qed.

(** C9: the two catalogs share exactly weather_code, sunshine_duration and
    et0_fao_evapotranspiration; a requested variable that is in both
    catalogs is put in both [hourly_vars] and [daily_vars], and
    [_build_params] sends it as an item of both the "hourly" and the "daily"
    comma-separated values. *)
Theorem shared_variable_sent_in_both self v :
  init = Ok self → v ∈ V → v ∈ HOURLY_VARIABLES → v ∈ DAILY_VARIABLES →
  HOURLY_VARIABLES ∩ DAILY_VARIABLES =
    {[ "weather_code"; "sunshine_duration"; "et0_fao_evapotranspiration" ]} ∧
  v ∈ self.(hourly_vars) ∧ v ∈ self.(daily_vars) ∧
  ∃ h d,
    _build_params self !! "hourly" = Some (PyStr h) ∧
    _build_params self !! "daily" = Some (PyStr d) ∧
    h = str_join "," self.(hourly_vars) ∧
    d = str_join "," self.(daily_vars) ∧
    v ∈ str_split "," h ∧ v ∈ str_split "," d.
Proof.
  intros Hinit HV Hh Hd.
  destruct (hourly_value self v Hinit HV Hh) as [Hph Hsh].
  destruct (daily_value self v Hinit HV Hd) as [Hpd Hsd].
  apply init_ok_inv in Hinit as (_ & Eh & Ed & _).
  assert (v ∈ self.(hourly_vars)) by (rewrite Eh; by apply list_elem_of_filter).
  assert (v ∈ self.(daily_vars)) by (rewrite Ed; by apply list_elem_of_filter).
  split; [apply catalogs_overlap|]. do 2 (split; [done|]).
  eexists _, _. split_and!; eauto; by rewrite ?Hsh, ?Hsd.
Qed.

(** C10: classification does not deduplicate: a catalogued name occurring
    k times in the variable list occurs k times in the corresponding output
    list, and (when k is not zero, so that the key is sent at all) k times
    among the items of the comma-separated "hourly" or "daily" value. *)
Theorem classification_keeps_duplicates self v :
  init = Ok self →
  (v ∈ HOURLY_VARIABLES →
     count v self.(hourly_vars) = count v V ∧
     (v ∈ V → ∃ h, _build_params self !! "hourly" = Some (PyStr h) ∧
                   h = str_join "," self.(hourly_vars) ∧
                   count v (str_split "," h) = count v V)) ∧
  (v ∈ DAILY_VARIABLES →
     count v self.(daily_vars) = count v V ∧
     (v ∈ V → ∃ d, _build_params self !! "daily" = Some (PyStr d) ∧
                   d = str_join "," self.(daily_vars) ∧
                   count v (str_split "," d) = count v V)).
Proof.
  intros Hinit. pose proof (init_ok_inv _ _ _ _ _ _ _ _ _ _ _ _ _ _ Hinit)
    as (_ & Eh & Ed & _).
  split; intros Hcat.
  - assert (Hc : count v self.(hourly_vars) = count v V)
      by (rewrite Eh; by apply count_filter).
    split; [done|]. intros HV.
    destruct (hourly_value self v Hinit HV Hcat) as [Hp Hs].
    eexists. split_and!; eauto. by rewrite Hs.
  - assert (Hc : count v self.(daily_vars) = count v V)
      by (rewrite Ed; by apply count_filter).
    split; [done|]. intros HV.
    destruct (daily_value self v Hinit HV Hcat) as [Hp Hs].
    eexists. split_and!; eauto. by rewrite Hs.
Qed.

End Request.

(** C7: an elevation given as 0 is sent, bound to 0, while an elevation
    that was not given leaves the key out. *)
Theorem build_params_elevation_zero
    lat lon V sd ed tz tu wu pu tf mdl cs self_zero self_none :
  __init__ lat lon V sd ed tz tu wu pu tf mdl (Some 0%float) cs = Ok self_zero →
  __init__ lat lon V sd ed tz tu wu pu tf mdl None cs = Ok self_none →
  _build_params self_zero !! "elevation" = Some (PyFloat 0) ∧
  _build_params self_none !! "elevation" = None.
Proof.
  intros Hz Hn.
  apply init_ok_inv in Hz as (_ & _ & _ & _ & Hez & _).
  apply init_ok_inv in Hn as (_ & _ & _ & _ & Hen & _).
  by rewrite !build_params_elevation, Hez, Hen.
Qed.

(** ** [to_dataframe] *)

Section ToDataFrame.

Variable requests_get : string → gmap string pyval → reply.
Context `{Pandas}.

Local Abbreviation fetched := (fetch requests_get).
Local Abbreviation to_df := (to_dataframe requests_get).

(** The exceptions of the steps of [with_section]. *)
Lemma py_in_raises key data e : py_in key data = Raise e → e = TypeError.
Proof. destruct data; simpl; congruence. Qed.

Lemma py_getitem_raises data key e :
  py_getitem data key = Raise e → e = KeyError key ∨ e = TypeError.
Proof.
  destruct data; simpl; try (intros [= <-]; by right).
  destruct (dict_get key fields); intros [= <-]. by left.
Qed.

Lemma in_pandas_raises {A} (c : pandas_exn + A) e :
  in_pandas c = Raise e → ∃ pe, e = PandasError pe.
Proof. destruct c as [pe|a]; simpl; intros [= <-]. by exists pe. Qed.

Lemma time_indexed_raises section e :
  time_indexed section = Raise e → ∃ pe, e = PandasError pe.
Proof.
  unfold time_indexed.
  destruct (in_pandas (pd_DataFrame section)) as [df|e1] eqn:E1; simpl;
    [|intros [= <-]; by eapply in_pandas_raises].
  destruct (in_pandas (df_getitem df "time")) as [t|e2] eqn:E2; simpl;
    [|intros [= <-]; by eapply in_pandas_raises].
  destruct (in_pandas (pd_to_datetime t)) as [t'|e3] eqn:E3; simpl;
    [|intros [= <-]; by eapply in_pandas_raises].
  destruct (in_pandas (df_setitem df "time" t')) as [df'|e4] eqn:E4; simpl;
    [|intros [= <-]; by eapply in_pandas_raises].
  apply in_pandas_raises.
Qed.

(** [with_section] either leaves [dfs] alone (key absent) or stores the
    table of the section. *)
Lemma with_section_ok key data dfs dfs' :
  with_section key data dfs = Ok dfs' ↔
  (py_in key data = Ok false ∧ dfs' = dfs) ∨
  (∃ df, table_for key data df ∧ dfs' = <[key := df]> dfs).
Proof.
  unfold with_section, table_for.
  destruct (py_in key data) as [[|]|e]; simpl;
    [destruct (py_getitem data key) as [section|e]; simpl;
      [destruct (time_indexed section) as [df|e] eqn:Et; simpl|]| |];
    (split;
      [ intros [= <-]
      | intros [[[=] ?] | (df' & (? & s' & [=] & ?) & ?)] ]);
    simplify_eq; eauto 10; unfold mret, result_ret; congruence.
Qed.

(** It raises no [ValueError]. *)
Lemma with_section_raises key data dfs e :
  with_section key data dfs = Raise e →
  e = TypeError ∨ e = KeyError key ∨ ∃ pe, e = PandasError pe.
Proof.
  unfold with_section.
  destruct (py_in key data) as [[|]|e0] eqn:Ein; simpl.
  - destruct (py_getitem data key) as [section|e1] eqn:Eget; simpl.
    + destruct (time_indexed section) as [df|e2] eqn:Et; simpl; [done|].
      intros [= <-]. right. right. by eapply time_indexed_raises.
    + intros [= <-]. destruct (py_getitem_raises _ _ _ Eget); auto.
  - done.
  - intros [= <-]. left. by eapply py_in_raises.
Qed.

(** *** The four shapes of a payload *)

Lemma is_None_false data : is_None data = false ↔ data ≠ JNull.
Proof. destruct data; simpl; split; congruence. Qed.

Lemma size_one (df : DataFrame) key :
  size (<[key := df]> (∅ : gmap string DataFrame)) = 1.
Proof. by rewrite insert_empty, map_size_singleton. Qed.

Lemma size_two (h d : DataFrame) :
  size (<["daily" := d]> (<["hourly" := h]> (∅ : gmap string DataFrame))) = 2.
Proof.
  rewrite map_size_insert_None, size_one; [done|].
  by rewrite lookup_insert_ne, lookup_empty.
Qed.

(** Neither section: the second [ValueError]. *)
Lemma to_dataframe_no_section self :
  fetched self ≠ JNull →
  py_in "hourly" (fetched self) = Ok false →
  py_in "daily" (fetched self) = Ok false →
  to_df self = Raise (ValueError no_section_found).
Proof.
  intros Hnn Hh Hd. unfold to_dataframe. apply is_None_false in Hnn.
  rewrite Hnn. cbv zeta.
  rewrite (proj2 (with_section_ok "hourly" _ ∅ ∅)) by auto. simpl.
  rewrite (proj2 (with_section_ok "daily" _ ∅ ∅)) by auto. simpl.
  by rewrite map_size_empty.
Qed.

(** An "hourly" section only: its table, as it is. *)
Lemma to_dataframe_hourly_only self hourly_df :
  fetched self ≠ JNull →
  table_for "hourly" (fetched self) hourly_df →
  py_in "daily" (fetched self) = Ok false →
  to_df self = Ok (Single hourly_df).
Proof.
  intros Hnn Hh Hd. unfold to_dataframe. apply is_None_false in Hnn.
  rewrite Hnn. cbv zeta.
  rewrite (proj2 (with_section_ok "hourly" _ ∅ (<["hourly" := hourly_df]> ∅)))
    by eauto. simpl.
  rewrite (proj2 (with_section_ok "daily" _ _ (<["hourly" := hourly_df]> ∅)))
    by auto. simpl.
  rewrite size_one. simpl. unfold dfs_getitem. by rewrite lookup_insert_eq.
Qed.

(** A "daily" section only: [dfs] has one entry, and it is not under
    "hourly". *)
Lemma to_dataframe_daily_only self daily_df :
  fetched self ≠ JNull →
  py_in "hourly" (fetched self) = Ok false →
  table_for "daily" (fetched self) daily_df →
  to_df self = Raise (KeyError "hourly").
Proof.
  intros Hnn Hh Hd. unfold to_dataframe. apply is_None_false in Hnn.
  rewrite Hnn. cbv zeta.
  rewrite (proj2 (with_section_ok "hourly" _ ∅ ∅)) by auto. simpl.
  rewrite (proj2 (with_section_ok "daily" _ ∅ (<["daily" := daily_df]> ∅)))
    by eauto. simpl.
  rewrite size_one. simpl. unfold dfs_getitem.
  by rewrite lookup_insert_ne, lookup_empty.
Qed.

(** Both sections: the dictionary of the two tables. *)
Lemma to_dataframe_both self hourly_df daily_df :
  fetched self ≠ JNull →
  table_for "hourly" (fetched self) hourly_df →
  table_for "daily" (fetched self) daily_df →
  to_df self = Ok (Mapping (<["daily" := daily_df]> (<["hourly" := hourly_df]> ∅))).
Proof.
  intros Hnn Hh Hd. unfold to_dataframe. apply is_None_false in Hnn.
  rewrite Hnn. cbv zeta.
  rewrite (proj2 (with_section_ok "hourly" _ ∅ (<["hourly" := hourly_df]> ∅)))
    by eauto. simpl.
  rewrite (proj2 (with_section_ok "daily" _ _
             (<["daily" := daily_df]> (<["hourly" := hourly_df]> ∅))))
    by eauto. simpl.
  by rewrite size_two.
Qed.

(** The [ValueError]s that the statements of [to_dataframe] themselves
    raise (pandas' are under [PandasError]). *)
Lemma to_dataframe_value_error self msg :
  to_df self = Raise (ValueError msg) →
  (fetched self = JNull ∧ msg = no_data_fetched) ∨
  (fetched self ≠ JNull ∧
   py_in "hourly" (fetched self) = Ok false ∧
   py_in "daily" (fetched self) = Ok false ∧
   msg = no_section_found).
Proof.
  unfold to_dataframe. cbv zeta.
  destruct (is_None (fetched self)) eqn:Hnn.
  { intros [= <-]. left. split; [|done]. by destruct (fetched self). }
  apply is_None_false in Hnn.
  destruct (with_section "hourly" (fetched self) ∅) as [dfs1|e1] eqn:E1; simpl;
    [|intros [= ->];
      destruct (with_section_raises _ _ _ _ E1) as [?|[?|[? ?]]]; done].
  destruct (with_section "daily" (fetched self) dfs1) as [dfs2|e2] eqn:E2; simpl;
    [|intros [= ->];
      destruct (with_section_raises _ _ _ _ E2) as [?|[?|[? ?]]]; done].
  apply with_section_ok in E1 as [[Hh ->]|(h & Hh & ->)];
    apply with_section_ok in E2 as [[Hd ->]|(d & Hd & ->)].
  - rewrite map_size_empty. simpl. intros [= <-]. right. auto.
  - rewrite size_one. simpl. unfold dfs_getitem.
    by rewrite lookup_insert_ne, lookup_empty.
  - rewrite size_one. simpl. unfold dfs_getitem. by rewrite lookup_insert_eq.
  - by rewrite size_two.
Qed.

(** C5: [to_dataframe] raises a data-unavailable error, that is the
    [ValueError] "No data fetched from API." or the [ValueError] "No
    'hourly' or 'daily' data found in API response.", in exactly two
    cases: the first exactly when [fetch] returned [None], the second
    exactly when there is a payload and neither "hourly" nor "daily" is in
    it, as for the empty object; with a payload in which one of the two
    keys is present it raises neither of them. *)
Theorem to_dataframe_data_unavailable self :
  (to_df self = Raise (ValueError no_data_fetched) ↔ fetched self = JNull) ∧
  (to_df self = Raise (ValueError no_section_found) ↔
     fetched self ≠ JNull ∧
     py_in "hourly" (fetched self) = Ok false ∧
     py_in "daily" (fetched self) = Ok false) ∧
  (fetched self = JObj [] → to_df self = Raise (ValueError no_section_found)) ∧
  (fetched self ≠ JNull →
   py_in "hourly" (fetched self) = Ok true ∨ py_in "daily" (fetched self) = Ok true →
   ∀ e, DataUnavailableError e → to_df self ≠ Raise e).
Proof.
  assert (Hfirst : to_df self = Raise (ValueError no_data_fetched) ↔
                   fetched self = JNull).
  { split.
    - intros Hraise.
      by apply to_dataframe_value_error in Hraise as [[? _] | (_ & _ & _ & [=])].
    - intros Hnull. unfold to_dataframe. by rewrite Hnull. }
  assert (Hsecond : to_df self = Raise (ValueError no_section_found) ↔
                    fetched self ≠ JNull ∧
                    py_in "hourly" (fetched self) = Ok false ∧
                    py_in "daily" (fetched self) = Ok false).
  { split.
    - intros Hraise.
      by apply to_dataframe_value_error in Hraise as [[_ [=]] | (? & ? & ? & _)].
    - intros (Hnn & Hh & Hd). by apply to_dataframe_no_section. }
  split_and!; [done | done | |].
  - intros Hempty. apply to_dataframe_no_section; by rewrite Hempty.
  - intros Hnn Hkey e [-> | ->] Hraise.
    + by apply Hfirst in Hraise.
    + apply Hsecond in Hraise as (_ & Hh & Hd).
      rewrite Hh, Hd in Hkey. by destruct Hkey.
Qed.

End ToDataFrame.

(** ** The constructor and [_build_params] on concrete requests *)

(** The scenario of the specification: one hourly and one daily variable. *)
Example scenario_sample_request :
  init_with_defaults 52.52 13.41 ["temperature_2m"; "sunrise"]
    "2023-01-01" "2023-01-02" = Ok sample_request ∧
  _build_params sample_request !! "hourly" = Some (PyStr "temperature_2m") ∧
  _build_params sample_request !! "daily" = Some (PyStr "sunrise").
Proof. split_and!; vm_compute; reflexivity. Qed.

(** C3 on the scenario's variable list. *)
Lemma init_partitions_variables_witness :
  sample_request.(hourly_vars) `sublist_of` ["temperature_2m"; "sunrise"].
Proof.
  refine (proj1 (init_partitions_variables 52.52 13.41 ["temperature_2m"; "sunrise"]
    "2023-01-01" "2023-01-02" "auto" "celsius" "kmh" "mm" "iso8601" None None
    "land" sample_request _)).
  vm_compute. reflexivity.
Defined.

(** C7 on two constructions that differ in the elevation only. *)
Lemma build_params_elevation_zero_witness :
  ∃ self_zero self_none,
    _build_params self_zero !! "elevation" = Some (PyFloat 0) ∧
    _build_params self_none !! "elevation" = None.
Proof.
  do 2 eexists.
  apply (build_params_elevation_zero 52.52 13.41 ["temperature_2m"]
    "2023-01-01" "2023-01-02" "auto" "celsius" "kmh" "mm" "iso8601" None "land");
    vm_compute; reflexivity.
Defined.

(** C9 on a request for weather_code, which both catalogs hold. *)
Lemma shared_variable_sent_in_both_witness :
  ∃ self h d,
    _build_params self !! "hourly" = Some (PyStr h) ∧
    _build_params self !! "daily" = Some (PyStr d) ∧
    "weather_code" ∈ str_split "," h ∧ "weather_code" ∈ str_split "," d.
Proof.
  eexists.
  match goal with |- context [_build_params ?self] =>
    edestruct (shared_variable_sent_in_both 52.52 13.41 ["rain"; "weather_code"]
      "2023-01-01" "2023-01-02" "auto" "celsius" "kmh" "mm" "iso8601" None None
      "land" self "weather_code")
      as (_ & _ & _ & h & d & Hh & Hd & _ & _ & Hsh & Hsd)
  end.
  - vm_compute. reflexivity.
  - apply (bool_decide_unpack _). vm_compute. exact I.
  - apply (bool_decide_unpack _). vm_compute. exact I.
  - apply (bool_decide_unpack _). vm_compute. exact I.
  - exists h, d. auto.
Defined.

(** C10 on a list that names rain twice. *)
Lemma classification_keeps_duplicates_witness :
  ∃ self,
    count "rain" self.(hourly_vars) = 2 ∧
    ∃ h, _build_params self !! "hourly" = Some (PyStr h) ∧
         count "rain" (str_split "," h) = 2.
Proof.
  eexists.
  match goal with |- context [_build_params ?self] =>
    edestruct (classification_keeps_duplicates 52.52 13.41 ["rain"; "sunrise"; "rain"]
      "2023-01-01" "2023-01-02" "auto" "celsius" "kmh" "mm" "iso8601" None None
      "land" self "rain") as [Hhourly _]
  end.
  - vm_compute. reflexivity.
  - destruct Hhourly as (Hc & Hsent).
    + apply (bool_decide_unpack _). vm_compute. exact I.
    + destruct Hsent as (h & Hh & _ & Hch).
      * apply (bool_decide_unpack _). vm_compute. exact I.
      * split; [exact Hc|]. exists h. split; [exact Hh | exact Hch].
Defined.

(** ** The shape of the result *)

Section Shapes.

Variable requests_get : string → gmap string pyval → reply.
Context `{Pandas}.

(** With a payload from which only the hourly table is built,
    [to_dataframe] returns that table itself. *)
Theorem hourly_table_returned_directly self hourly_df :
  fetch requests_get self ≠ JNull →
  table_for "hourly" (fetch requests_get self) hourly_df →
  py_in "daily" (fetch requests_get self) = Ok false →
  to_dataframe requests_get self = Ok (Single hourly_df).
Proof. apply to_dataframe_hourly_only. Qed.

(** With a payload from which both tables are built, [to_dataframe]
    returns a dictionary whose keys are exactly "hourly" and "daily", each
    bound to its table. *)
Theorem both_tables_returned_as_mapping self hourly_df daily_df :
  fetch requests_get self ≠ JNull →
  table_for "hourly" (fetch requests_get self) hourly_df →
  table_for "daily" (fetch requests_get self) daily_df →
  ∃ dfs, to_dataframe requests_get self = Ok (Mapping dfs) ∧
         dom dfs = {[ "hourly"; "daily" ]} ∧
         dfs !! "hourly" = Some hourly_df ∧
         dfs !! "daily" = Some daily_df.
Proof.
  intros Hnn Hh Hd. eexists. split; [by apply to_dataframe_both|].
  split_and!.
  - rewrite !dom_insert_L, dom_empty_L. set_solver.
  - by rewrite lookup_insert_ne, lookup_insert_eq.
  - by rewrite lookup_insert_eq.
Qed.

End Shapes.

(** ** [to_dataframe] on the sample responses, with the pandas model *)

Section Samples.

Import PandasModel.

Local Abbreviation to_df body := (to_dataframe (H := pandas_model) (always body)).

Lemma table_for_hourly_only : table_for "hourly" hourly_only hourly_table.
Proof. split; [reflexivity|]. eexists. split; vm_compute; reflexivity. Qed.

Lemma table_for_daily_only : table_for "daily" daily_only sunrise_table.
Proof. split; [reflexivity|]. eexists. split; vm_compute; reflexivity. Qed.

Lemma tables_for_hourly_and_daily :
  table_for "hourly" hourly_and_daily hourly_table ∧
  table_for "daily" hourly_and_daily daily_table.
Proof.
  split; (split; [reflexivity|]; eexists; split; vm_compute; reflexivity).
Qed.

(** C8: for the payload holding only an "hourly" section with
    time = ["2020-01-01T00:00", "2020-01-01T01:00"] and
    temperature_2m = [1.0, 2.0], [to_dataframe] returns one table, not a
    dictionary: two rows, indexed by the two parsed timestamps, and a
    temperature_2m column [1.0, 2.0]. *)
Theorem to_dataframe_hourly_round_trip self :
  to_df hourly_only self = Ok (Single hourly_table) ∧
  length hourly_table.(index) = 2 ∧
  hourly_table.(index) = [STime (midnight 1); STime (one_o_clock 1)] ∧
  parse_iso8601 "2020-01-01T00:00" = Some (true, midnight 1) ∧
  parse_iso8601 "2020-01-01T01:00" = Some (true, one_o_clock 1) ∧
  column_get "temperature_2m" hourly_table.(columns) = Some [SFloat 1.0; SFloat 2.0].
Proof.
  split; [|by vm_compute].
  apply to_dataframe_hourly_only; [done | apply table_for_hourly_only | done].
Qed.

(** C1 at a payload with a "daily" section only: the daily table is
    built, and [to_dataframe] raises [KeyError] for "hourly" where the
    claim has it return that table. *)
Theorem to_dataframe_daily_only_raises self :
  table_for "daily" daily_only sunrise_table ∧
  py_in "hourly" daily_only = Ok false ∧
  to_df daily_only self = Raise (KeyError "hourly").
Proof.
  split; [apply table_for_daily_only|]. split; [done|].
  eapply to_dataframe_daily_only; [done | done | apply table_for_daily_only].
Qed.

(** The hourly table of [hourly_only] comes back as it is. *)
Lemma hourly_table_returned_directly_witness :
  to_df hourly_only sample_request = Ok (Single hourly_table).
Proof.
  apply (hourly_table_returned_directly (H := pandas_model)
           (always hourly_only) sample_request hourly_table).
  - vm_compute. discriminate.
  - apply table_for_hourly_only.
  - reflexivity.
Defined.

(** The two tables of [hourly_and_daily] come back in a dictionary. *)
Lemma both_tables_returned_as_mapping_witness :
  ∃ dfs, to_df hourly_and_daily sample_request = Ok (Mapping dfs) ∧
         dom dfs = {[ "hourly"; "daily" ]} ∧
         dfs !! "hourly" = Some hourly_table ∧
         dfs !! "daily" = Some daily_table.
Proof.
  apply (both_tables_returned_as_mapping (H := pandas_model)
           (always hourly_and_daily) sample_request hourly_table daily_table).
  - vm_compute. discriminate.
  - apply tables_for_hourly_and_daily.
  - apply tables_for_hourly_and_daily.
Defined.

End Samples.

(** * Further properties of the constructor and of [_build_params] *)

Section Arguments.

Variables (lat lon : float) (sd ed : string).
Variables (tz tu wu pu tf : string).
Variables (mdl : option string) (elev : option float) (cs : string).

Local Abbreviation init V := (__init__ lat lon V sd ed tz tu wu pu tf mdl elev cs).

(** Every attribute of a constructed object. *)
Lemma init_ok_fields V self :
  init V = Ok self →
  self = {| latitude := lat; longitude := lon; variables := V;
            start_date := sd; end_date := ed; timezone := tz;
            temperature_unit := tu; wind_speed_unit := wu;
            precipitation_unit := pu; timeformat := tf;
            model := mdl; elevation := elev; cell_selection := cs;
            hourly_vars := filter (λ v, v ∈ HOURLY_VARIABLES) V;
            daily_vars := filter (λ v, v ∈ DAILY_VARIABLES) V |}.
Proof.
  unfold __init__. destruct (negb _ && negb _); [done|]. by intros [= <-].
Qed.

(** Construction succeeds exactly when a variable is catalogued. *)
Lemma init_ok_iff V :
  (∃ self, init V = Ok self) ↔
  ∃ v, v ∈ V ∧ (v ∈ HOURLY_VARIABLES ∨ v ∈ DAILY_VARIABLES).
Proof.
  split.
  - intros [self Hinit]. apply init_ok_inv in Hinit as (_ & Hh & Hd & _ & _ & Hne).
    destruct Hne as [Hne|Hne].
    + destruct self.(hourly_vars) as [|v vs] eqn:E; [done|].
      assert (Hv : v ∈ filter (λ v, v ∈ HOURLY_VARIABLES) V)
        by (rewrite <- Hh; left).
      apply list_elem_of_filter in Hv as [? ?]. exists v. auto.
    + destruct self.(daily_vars) as [|v vs] eqn:E; [done|].
      assert (Hv : v ∈ filter (λ v, v ∈ DAILY_VARIABLES) V)
        by (rewrite <- Hd; left).
      apply list_elem_of_filter in Hv as [? ?]. exists v. auto.
  - apply init_raises_iff_no_valid_variable.
Qed.

(** X3: a name that is in neither catalog is dropped without trace:
    wherever it is inserted in the variable list, construction still
    succeeds, [hourly_vars] and [daily_vars] are unchanged, and
    [_build_params] returns the same dictionary. *)
Theorem unknown_variable_changes_nothing V1 V2 u self :
  u ∉ HOURLY_VARIABLES → u ∉ DAILY_VARIABLES →
  init (V1 ++ V2)%list = Ok self →
  ∃ self', init (V1 ++ u :: V2)%list = Ok self' ∧
           self'.(variables) = (V1 ++ u :: V2)%list ∧
           self'.(hourly_vars) = self.(hourly_vars) ∧
           self'.(daily_vars) = self.(daily_vars) ∧
           _build_params self' = _build_params self.
Proof.
  intros Hh Hd Hinit. apply init_ok_fields in Hinit as Hself.
  assert (Eh : filter (λ v, v ∈ HOURLY_VARIABLES) (V1 ++ u :: V2)%list
               = filter (λ v, v ∈ HOURLY_VARIABLES) (V1 ++ V2)%list)
    by (rewrite !filter_app; f_equal; by apply filter_cons_False).
  assert (Ed : filter (λ v, v ∈ DAILY_VARIABLES) (V1 ++ u :: V2)%list
               = filter (λ v, v ∈ DAILY_VARIABLES) (V1 ++ V2)%list)
    by (rewrite !filter_app; f_equal; by apply filter_cons_False).
  revert Hinit. unfold __init__. rewrite Eh, Ed.
  destruct (negb _ && negb _); [done|]. intros _.
  eexists. split; [reflexivity|]. by rewrite Hself.
Qed.

(** X4: adding variables never makes construction fail: when it succeeds
    on a list, it succeeds on every list that holds the same names, in any
    order and among any others. *)
Theorem construction_is_monotone V V' self :
  __init__ lat lon V sd ed tz tu wu pu tf mdl elev cs = Ok self →
  V ⊆ V' →
  ∃ self', __init__ lat lon V' sd ed tz tu wu pu tf mdl elev cs = Ok self'.
Proof.
  intros Hinit Hsub. apply init_ok_iff.
  destruct (proj1 (init_ok_iff V)) as (v & Hv & Hcat); [by exists self|].
  exists v. split; [by apply Hsub | done].
Qed.

(** X5: a constructed object never sends a request without variables:
    its dictionary has "hourly" or "daily", and between 11 and 14
    entries. *)
Theorem constructed_request_names_a_frequency V self :
  init V = Ok self →
  ("hourly" ∈ dom (_build_params self) ∨ "daily" ∈ dom (_build_params self)) ∧
  (11 ≤ size (_build_params self) ≤ 14)%nat.
Proof.
  intros Hinit. apply init_ok_inv in Hinit as (_ & _ & _ & _ & _ & Hne).
  split.
  - rewrite !elem_of_dom, build_params_hourly, build_params_daily.
    destruct Hne as [Hne|Hne]; apply truthy_list_true in Hne; rewrite Hne;
      [left | right]; by eexists.
  - revert Hne. params_cases self; intros [?|?]; try done; vm_compute; lia.
Qed.

(** X6: what is sent is what was given: each of the ten base keys is
    bound to the corresponding constructor argument, a non-empty model is
    sent under "model" and an elevation under "elevation", none of them
    changed or overwritten by the optional entries. *)
Theorem build_params_passes_arguments V self :
  init V = Ok self →
  _build_params self !! "latitude" = Some (PyFloat lat) ∧
  _build_params self !! "longitude" = Some (PyFloat lon) ∧
  _build_params self !! "start_date" = Some (PyStr sd) ∧
  _build_params self !! "end_date" = Some (PyStr ed) ∧
  _build_params self !! "timezone" = Some (PyStr tz) ∧
  _build_params self !! "temperature_unit" = Some (PyStr tu) ∧
  _build_params self !! "wind_speed_unit" = Some (PyStr wu) ∧
  _build_params self !! "precipitation_unit" = Some (PyStr pu) ∧
  _build_params self !! "timeformat" = Some (PyStr tf) ∧
  _build_params self !! "cell_selection" = Some (PyStr cs) ∧
  (∀ m, mdl = Some m → m ≠ "" → _build_params self !! "model" = Some (PyStr m)) ∧
  (∀ e, elev = Some e → _build_params self !! "elevation" = Some (PyFloat e)).
Proof.
  intros Hinit. apply init_ok_fields in Hinit. subst self.
  generalize (filter (λ v, v ∈ HOURLY_VARIABLES) V)
             (filter (λ v, v ∈ DAILY_VARIABLES) V). intros hv dv.
  split_and!;
    try (destruct hv, dv, mdl as [[|? ?]|], elev; vm_compute; reflexivity).
  - intros m -> Hm. rewrite build_params_model. simpl.
    apply truthy_str_true in Hm. by rewrite Hm.
  - intros e ->. by rewrite build_params_elevation.
Qed.

(** X7: the comma-separated values can be read back: for a constructed
    object, splitting the "hourly" value at the commas gives [hourly_vars]
    again, in order and with repetitions, and likewise for "daily". *)
Theorem query_values_read_back V self :
  init V = Ok self →
  (self.(hourly_vars) ≠ [] →
     ∃ h, _build_params self !! "hourly" = Some (PyStr h) ∧
          str_split "," h = self.(hourly_vars)) ∧
  (self.(daily_vars) ≠ [] →
     ∃ d, _build_params self !! "daily" = Some (PyStr d) ∧
          str_split "," d = self.(daily_vars)).
Proof.
  intros Hinit. apply init_ok_inv in Hinit as (_ & Hh & Hd & _).
  split; intros Hne.
  - exists (str_join "," self.(hourly_vars)). split.
    + rewrite build_params_hourly. apply truthy_list_true in Hne. by rewrite Hne.
    + apply (str_split_join "," _ Hne). rewrite Hh. apply Forall_forall.
      intros x Hx. apply list_elem_of_filter in Hx as [Hx _].
      by apply hourly_comma_free.
  - exists (str_join "," self.(daily_vars)). split.
    + rewrite build_params_daily. apply truthy_list_true in Hne. by rewrite Hne.
    + apply (str_split_join "," _ Hne). rewrite Hd. apply Forall_forall.
      intros x Hx. apply list_elem_of_filter in Hx as [Hx _].
      by apply daily_comma_free.
Qed.

End Arguments.

(** The five properties above on the request of the scenario. *)
Lemma unknown_variable_changes_nothing_witness :
  ∃ self',
    init_with_defaults 52.52 13.41 ["temperature_2m"; "humidity"; "sunrise"]
      "2023-01-01" "2023-01-02" = Ok self' ∧
    _build_params self' = _build_params sample_request.
Proof.
  destruct (unknown_variable_changes_nothing 52.52 13.41 "2023-01-01" "2023-01-02"
    "auto" "celsius" "kmh" "mm" "iso8601" None None "land"
    ["temperature_2m"] ["sunrise"] "humidity" sample_request)
    as (self' & Hinit & _ & _ & _ & Hparams).
  - apply (bool_decide_unpack _). vm_compute. exact I.
  - apply (bool_decide_unpack _). vm_compute. exact I.
  - vm_compute. reflexivity.
  - exists self'. split; [exact Hinit | exact Hparams].
Defined.

Lemma construction_is_monotone_witness :
  ∃ self',
    init_with_defaults 52.52 13.41 ["humidity"; "sunrise"; "temperature_2m"; "rain"]
      "2023-01-01" "2023-01-02" = Ok self'.
Proof.
  apply (construction_is_monotone 52.52 13.41 "2023-01-01" "2023-01-02"
    "auto" "celsius" "kmh" "mm" "iso8601" None None "land"
    ["temperature_2m"; "sunrise"] _ sample_request).
  - vm_compute. reflexivity.
  - set_solver.
Defined.

Lemma constructed_request_names_a_frequency_witness :
  ("hourly" ∈ dom (_build_params sample_request) ∨
   "daily" ∈ dom (_build_params sample_request)) ∧
  (11 ≤ size (_build_params sample_request) ≤ 14)%nat.
Proof.
  apply (constructed_request_names_a_frequency 52.52 13.41 "2023-01-01" "2023-01-02"
    "auto" "celsius" "kmh" "mm" "iso8601" None None "land"
    ["temperature_2m"; "sunrise"]).
  vm_compute. reflexivity.
Defined.

Lemma build_params_passes_arguments_witness :
  _build_params sample_request !! "latitude" = Some (PyFloat 52.52).
Proof.
  refine (proj1 (build_params_passes_arguments 52.52 13.41 "2023-01-01" "2023-01-02"
    "auto" "celsius" "kmh" "mm" "iso8601" None None "land"
    ["temperature_2m"; "sunrise"] sample_request _)).
  vm_compute. reflexivity.
Defined.

Lemma query_values_read_back_witness :
  ∃ h, _build_params sample_request !! "hourly" = Some (PyStr h) ∧
       str_split "," h = ["temperature_2m"].
Proof.
  refine (proj1 (query_values_read_back 52.52 13.41 "2023-01-01" "2023-01-02"
    "auto" "celsius" "kmh" "mm" "iso8601" None None "land"
    ["temperature_2m"; "sunrise"] sample_request _) _).
  - vm_compute. reflexivity.
  - discriminate.
Defined.

(** * Further properties of [fetch] and [to_dataframe] *)

Section Outcomes.

Variable requests_get : string → gmap string pyval → reply.
Context `{Pandas}.

Local Abbreviation fetched := (fetch requests_get).
Local Abbreviation to_df := (to_dataframe requests_get).

(** A key that [in] finds is one the subscript finds. *)
Lemma py_getitem_after_in key data e :
  py_in key data = Ok true → py_getitem data key = Raise e → e = TypeError.
Proof.
  destruct data; simpl; try (by intros _ [= <-]).
  destruct (dict_get key fields); done.
Qed.

Lemma py_in_not_None key data b : py_in key data = Ok b → data ≠ JNull.
Proof. by destruct data. Qed.

(** When [with_section] raises, and what. *)
Lemma with_section_raises_iff key data dfs e :
  with_section key data dfs = Raise e ↔
  (e = TypeError ∧
     (py_in key data = Raise TypeError ∨
      (py_in key data = Ok true ∧ py_getitem data key = Raise TypeError))) ∨
  (∃ pe, e = PandasError pe ∧ section_fails key data pe).
Proof.
  unfold with_section, section_fails.
  destruct (py_in key data) as [[|]|e0] eqn:Ein; simpl.
  - destruct (py_getitem data key) as [section|e1] eqn:Eget; simpl.
    + destruct (time_indexed section) as [df|e2] eqn:Et; simpl.
      * split; [done|].
        intros [(_ & [?|[_ ?]]) | (pe & _ & _ & s & [= <-] & Hs)]; congruence.
      * split.
        -- intros [= <-]. right.
           destruct (time_indexed_raises _ _ Et) as [pe ->]. exists pe. eauto.
        -- intros [(_ & [?|[_ ?]]) | (pe & -> & _ & s & [= <-] & Hs)];
             try congruence.
    + pose proof (py_getitem_after_in _ _ _ Ein Eget) as ->. split.
      * intros [= <-]. left. auto.
      * intros [(-> & _) | (pe & _ & _ & s & [=] & _)]. done.
  - split; [done|].
    intros [(_ & [?|[? _]]) | (pe & _ & ? & _)]; congruence.
  - pose proof (py_in_raises _ _ _ Ein) as ->. split.
    + intros [= <-]. left. auto.
    + intros [(-> & _) | (pe & _ & [=] & _)]. done.
Qed.

Lemma to_dataframe_hourly_raises self e :
  fetched self ≠ JNull →
  with_section "hourly" (fetched self) ∅ = Raise e → to_df self = Raise e.
Proof.
  intros Hnn E1. unfold to_dataframe. apply is_None_false in Hnn.
  rewrite Hnn. cbv zeta. by rewrite E1.
Qed.

Lemma to_dataframe_daily_raises self dfs1 e :
  fetched self ≠ JNull →
  with_section "hourly" (fetched self) ∅ = Ok dfs1 →
  with_section "daily" (fetched self) dfs1 = Raise e → to_df self = Raise e.
Proof.
  intros Hnn E1 E2. unfold to_dataframe. apply is_None_false in Hnn.
  rewrite Hnn. cbv zeta. rewrite E1. simpl. by rewrite E2.
Qed.

(** Every outcome of [to_dataframe], by what the two sections gave. *)
Lemma to_dataframe_outcome self :
  (fetched self = JNull ∧ to_df self = Raise (ValueError no_data_fetched)) ∨
  (fetched self ≠ JNull ∧
   ((∃ e, with_section "hourly" (fetched self) ∅ = Raise e ∧ to_df self = Raise e) ∨
    (∃ dfs1 e, with_section "hourly" (fetched self) ∅ = Ok dfs1 ∧
               with_section "daily" (fetched self) dfs1 = Raise e ∧
               to_df self = Raise e) ∨
    (py_in "hourly" (fetched self) = Ok false ∧
     py_in "daily" (fetched self) = Ok false ∧
     to_df self = Raise (ValueError no_section_found)) ∨
    (∃ h, table_for "hourly" (fetched self) h ∧
          py_in "daily" (fetched self) = Ok false ∧
          to_df self = Ok (Single h)) ∨
    (∃ d, py_in "hourly" (fetched self) = Ok false ∧
          table_for "daily" (fetched self) d ∧
          to_df self = Raise (KeyError "hourly")) ∨
    (∃ h d, table_for "hourly" (fetched self) h ∧
            table_for "daily" (fetched self) d ∧
            to_df self = Ok (Mapping (<["daily" := d]> (<["hourly" := h]> ∅)))))).
Proof.
  destruct (is_None (fetched self)) eqn:Hnn.
  { left. unfold to_dataframe. rewrite Hnn. by destruct (fetched self). }
  apply is_None_false in Hnn. right. split; [done|].
  destruct (with_section "hourly" (fetched self) ∅) as [dfs1|e1] eqn:E1.
  2: { left. exists e1. split; [done|]. by apply to_dataframe_hourly_raises. }
  destruct (with_section "daily" (fetched self) dfs1) as [dfs2|e2] eqn:E2.
  2: { right. left. exists dfs1, e2. split_and!; try done.
       by eapply to_dataframe_daily_raises. }
  do 2 right.
  apply with_section_ok in E1 as [[Hh ->]|(h & Hh & ->)];
    apply with_section_ok in E2 as [[Hd ->]|(d & Hd & ->)].
  - left. split_and!; try done. by apply to_dataframe_no_section.
  - do 2 right. left. exists d. split_and!; try done.
    by eapply to_dataframe_daily_only.
  - right. left. exists h. split_and!; try done.
    by eapply to_dataframe_hourly_only.
  - do 3 right. exists h, d. split_and!; try done. by eapply to_dataframe_both.
Qed.

(** X8: [to_dataframe] returns a result exactly when the hourly table is
    built and the daily section is absent (the result is that table) or
    built as well (the result is the dictionary of the two); it never
    returns a daily table alone, nor anything for a payload without an
    "hourly" section. *)
Theorem to_dataframe_returns_iff self r :
  to_df self = Ok r ↔
  ∃ h, table_for "hourly" (fetched self) h ∧
       ((py_in "daily" (fetched self) = Ok false ∧ r = Single h) ∨
        (∃ d, table_for "daily" (fetched self) d ∧
              r = Mapping (<["daily" := d]> (<["hourly" := h]> ∅)))).
Proof.
  split.
  - intros Hok.
    destruct (to_dataframe_outcome self)
      as [[_ E] | (_ & [(e & _ & E) | [(dfs1 & e & _ & _ & E) |
           [(_ & _ & E) | [(h & Hh & Hd & E) | [(d & _ & _ & E) |
           (h & d & Hh & Hd & E)]]]]])];
      rewrite E in Hok; try done; injection Hok as <-; exists h; eauto.
  - intros (h & Hh & [[Hd ->] | (d & Hd & ->)]);
      pose proof (py_in_not_None _ _ _ (proj1 Hh)) as Hnn.
    + by apply to_dataframe_hourly_only.
    + by apply to_dataframe_both.
Qed.


(** X10: an exception raised by pandas while a section is converted leaves
    [to_dataframe] as it is, and no other pandas exception does: the one
    of the hourly section when that section fails, else the one of the
    daily section, even when the hourly table was already built. *)
Theorem to_dataframe_pandas_error_iff self pe :
  to_df self = Raise (PandasError pe) ↔
  section_fails "hourly" (fetched self) pe ∨
  ((py_in "hourly" (fetched self) = Ok false ∨
    ∃ h, table_for "hourly" (fetched self) h) ∧
   section_fails "daily" (fetched self) pe).
Proof.
  split.
  - intros Hraise.
    destruct (to_dataframe_outcome self)
      as [[_ E] | (_ & [(e & Hw & E) | [(dfs1 & e & Hw1 & Hw & E) |
           [(_ & _ & E) | [(h & Hh & Hd & E) | [(d & Hh & Hd & E) |
           (h & d & Hh & Hd & E)]]]]])];
      rewrite E in Hraise; try done.
    + injection Hraise as ->. left.
      apply with_section_raises_iff in Hw as [[? _] | (pe' & [= <-] & ?)]; done.
    + injection Hraise as ->. right.
      apply with_section_raises_iff in Hw as [[? _] | (pe' & [= <-] & ?)];
        [done|].
      split; [|done].
      apply with_section_ok in Hw1 as [[? _] | (h & ? & _)]; eauto.
  - intros [Hf | [Hh Hf]].
    + pose proof (py_in_not_None _ _ _ (proj1 Hf)) as Hnn.
      apply to_dataframe_hourly_raises; [done|].
      apply with_section_raises_iff. right. eauto.
    + pose proof (py_in_not_None _ _ _ (proj1 Hf)) as Hnn.
      destruct Hh as [Hh | [h Hh]].
      * eapply to_dataframe_daily_raises; [done | |].
        -- apply with_section_ok. left. eauto.
        -- apply with_section_raises_iff. right. eauto.
      * eapply to_dataframe_daily_raises; [done | |].
        -- apply with_section_ok. right. eauto.
        -- apply with_section_raises_iff. right. eauto.
Qed.

(** X11: a payload that is not an object gives no table.  A number or a
    Boolean raises [TypeError] at the [in] test; an array or a string
    raises [TypeError] at the subscript when "hourly" or "daily" is among
    its items (is a substring of it), and the second [ValueError]
    otherwise. *)
Theorem to_dataframe_non_object_payload self :
  match fetched self with
  | JBool _ | JInt _ | JFloat _ => to_df self = Raise TypeError
  | JArr items =>
      to_df self =
        if existsb (eq_str "hourly") items || existsb (eq_str "daily") items
        then Raise TypeError else Raise (ValueError no_section_found)
  | JStr s =>
      to_df self =
        if is_substring "hourly" s || is_substring "daily" s
        then Raise TypeError else Raise (ValueError no_section_found)
  | JNull | JObj _ => True
  end.
Proof.
  unfold to_dataframe, with_section.
  destruct (fetched self) as [| | | |s|items|]; simpl; try done.
  - destruct (is_substring "hourly" s); simpl; [done|].
    by destruct (is_substring "daily" s).
  - destruct (existsb (eq_str "hourly") items); simpl; [done|].
    by destruct (existsb (eq_str "daily") items).
Qed.

(** X12: a request that fails is reported by [to_dataframe] as the first
    [ValueError], and so is a body that decodes to [None]; nothing else
    is. The [RequestException] itself never leaves [to_dataframe]. *)
Theorem to_dataframe_no_data_iff self :
  to_df self = Raise (ValueError no_data_fetched) ↔
  (∃ msg, requests_get BASE_URL (_build_params self) = RequestException msg) ∨
  requests_get BASE_URL (_build_params self) = Decoded JNull.
Proof.
  split.
  - intros Hraise.
    apply to_dataframe_value_error in Hraise as [[Hnull _] | (_ & _ & _ & [=])].
    revert Hnull. unfold fetch.
    destruct (requests_get BASE_URL (_build_params self)) as [msg|body];
      [eauto | intros ->; auto].
  - intros Hreply. unfold to_dataframe, fetch.
    destruct Hreply as [[msg ->] | ->]; done.
Qed.

End Outcomes.

(** * Further properties of [to_dataframe] with the pandas model *)

Section ModelledSections.

Import PandasModel.

Local Abbreviation indexed := (time_indexed (H := pandas_model)).

Lemma column_get_set col cells cols :
  column_get col (column_set col cells cols) = Some cells.
Proof.
  induction cols as [|[k old] rest IH]; simpl.
  - by rewrite String.eqb_refl.
  - destruct (String.eqb k col) eqn:E; simpl; by rewrite E.
Qed.

Lemma column_drop_set col cells cols :
  column_drop col (column_set col cells cols) = column_drop col cols.
Proof.
  unfold column_drop. induction cols as [|[k old] rest IH]; simpl.
  - by rewrite filter_cons_False, filter_nil by (simpl; auto).
  - destruct (String.eqb k col) eqn:E.
    + apply String.eqb_eq in E as ->.
      by rewrite !(filter_cons_False _ (col, _)) by (simpl; auto).
    + apply String.eqb_neq in E.
      rewrite !(filter_cons_True _ (k, _)) by done. by rewrite IH.
Qed.

Lemma column_get_drop col cols : column_get col (column_drop col cols) = None.
Proof.
  unfold column_drop. induction cols as [|[k old] rest IH]; [done|].
  rewrite filter_cons. destruct (decide ((k, old).1 ≠ col)) as [Hne|]; [|done].
  simpl in *. apply String.eqb_neq in Hne. by rewrite Hne.
Qed.

(** The frame [pd.DataFrame] builds from columns of one length. *)
Lemma model_DataFrame_rect fields cols n :
  decode_columns fields = Some cols →
  Forall (λ kc, length kc.2 = n) cols →
  ∃ idx, model_DataFrame (JObj fields)
           = inr {| index_name := None; index := idx; columns := cols |} ∧
         (cols ≠ [] → length idx = n).
Proof.
  intros Hdec Hlen. unfold model_DataFrame. rewrite Hdec.
  destruct cols as [|[k cells] rest]; [by eexists|].
  apply Forall_cons in Hlen as [Hk Hrest]. simpl in Hk.
  assert (Hall : forallb (λ kc, Nat.eqb (length kc.2) (length cells)) rest = true).
  { apply forallb_forall. intros kc Hkc. apply Nat.eqb_eq.
    rewrite Forall_forall in Hrest. rewrite Hk. apply Hrest.
    by apply list_elem_of_In. }
  rewrite Hall. eexists. split; [reflexivity|]. intros _.
  unfold range_index. by rewrite length_fmap, length_seq.
Qed.

(** X13: the table of a section within the model.  When every field of
    a section is an array holding only strings, only integers or only
    floats (no null, no mixture: [decode_columns] succeeds), the arrays
    have one length, and the "time" array parses as ISO 8601 in one format,
    the table has the index named "time" holding the parsed timestamps,
    one row per entry of "time"; its columns are the fields other than
    "time", in the order of the payload and each as long as the index.
    Sections with a null or with mixed cells are outside the model and
    nothing is stated about them. *)
Theorem time_indexed_shape fields cols times parsed :
  decode_columns fields = Some cols →
  Forall (λ kc, length kc.2 = length times) cols →
  column_get "time" cols = Some times →
  mapM parse_cell times = Some parsed →
  same_format parsed = true →
  ∃ df, indexed (JObj fields) = Ok df ∧
        df.(index_name) = Some "time" ∧
        df.(index) = (λ p, STime p.2) <$> parsed ∧
        df.(columns) = column_drop "time" cols ∧
        column_get "time" df.(columns) = None ∧
        length df.(index) = length times ∧
        Forall (λ kc, length kc.2 = length df.(index)) df.(columns).
Proof.
  intros Hdec Hlen Hget Hparse Hfmt.
  destruct (model_DataFrame_rect _ _ _ Hdec Hlen) as (idx & Hdf & Hidx).
  assert (Hne : cols ≠ []) by (intros ->; discriminate).
  specialize (Hidx Hne).
  assert (Hplen : length ((λ p, STime p.2) <$> parsed) = length times)
    by (rewrite length_fmap; symmetry; by eapply length_mapM).
  unfold time_indexed.
  cbn [pd_DataFrame df_getitem pd_to_datetime df_setitem df_set_index pandas_model].
  rewrite Hdf. cbn [in_pandas mbind result_bind].
  unfold model_getitem at 1. cbn [columns].
  rewrite Hget. cbn [in_pandas mbind result_bind].
  unfold model_to_datetime. rewrite Hparse, Hfmt. cbn [in_pandas mbind result_bind].
  unfold model_setitem. cbn [index columns index_name].
  rewrite Hplen, Hidx, Nat.eqb_refl. cbn [in_pandas mbind result_bind].
  unfold model_set_index. cbn [index columns index_name].
  rewrite column_get_set. cbn [in_pandas].
  eexists. split; [reflexivity|]. cbn [index columns index_name].
  rewrite column_drop_set. split_and!; try done.
  - apply column_get_drop.
  - rewrite Hplen. unfold column_drop. apply Forall_forall.
    intros kc Hkc. apply list_elem_of_filter in Hkc as [_ Hkc].
    rewrite Forall_forall in Hlen. by apply Hlen.
Qed.

End ModelledSections.

(** The property above on the "hourly" section of [hourly_only]. *)
Lemma time_indexed_shape_witness :
  ∃ df, time_indexed (H := PandasModel.pandas_model)
          (JObj [("time", JArr [JStr "2020-01-01T00:00"; JStr "2020-01-01T01:00"]);
                 ("temperature_2m", JArr [JFloat 1.0; JFloat 2.0])]) = Ok df ∧
        PandasModel.index_name df = Some "time" ∧
        length (PandasModel.index df) = 2.
Proof.
  edestruct (time_indexed_shape
    [("time", JArr [JStr "2020-01-01T00:00"; JStr "2020-01-01T01:00"]);
     ("temperature_2m", JArr [JFloat 1.0; JFloat 2.0])])
    as (df & Hdf & Hname & _ & _ & _ & Hlen & _).
  - vm_compute. reflexivity.
  - repeat constructor.
  - vm_compute. reflexivity.
  - vm_compute. reflexivity.
  - vm_compute. reflexivity.
  - exists df. split; [exact Hdf|]. split; [exact Hname | exact Hlen].
Defined.
